(** * Waste Processing Zone Optimizer: feasibility, cost and search

    A shallow embedding of the optimisation core of [app.py]
    (lines 98-150): the three geometric checks, [is_feasible], the
    [objective] function and the call of the bounded minimiser; and of
    the output section (lines 155-200) as far as it acts on the session
    state and builds the map.

    Numbers.  The code is read twice.  In the first reading Python
    floats and numpy float64 values are the real numbers ([R]) they
    stand for, with the decidable order of [R]; this is the reading the
    general theorems are proved in, and rounding, overflow and NaN are
    outside it.  In the second reading (module [f64]) the arithmetic of
    the helper functions and of the objective is IEEE 754 binary64, and
    the code is evaluated bit for bit on concrete inputs; it shows
    where rounding and overflow make the code leave the first reading.

    Geometry.  The two regions are shapely geometries loaded from data
    files.  A geometry is modelled by the way it classifies the points
    of the plane (interior, boundary, exterior), which is the
    information the DE-9IM predicates of shapely are defined from. *)

From Stdlib Require Import PrimFloat FloatOps SpecFloat.
From Stdlib Require Import Reals Lra Lia List String ZArith Bool.
Import ListNotations.
Open Scope R_scope.
Set Warnings "-inexact-float".

(** ** Decidable comparisons on floats-as-reals *)

Definition Rltb (a b : R) : bool := if Rlt_dec a b then true else false.
Definition Rleb (a b : R) : bool := if Rle_dec a b then true else false.
Definition Reqb (a b : R) : bool := if Req_dec_T a b then true else false.

(** ** numpy *)

Module np.

(** [np.ceil]: the least integer not below the argument, as a float. *)
Definition ceil (r : R) : R := IZR (- Int_part (- r)).

(** [np.sqrt] *)
Definition sqrt (r : R) : R := R_sqrt.sqrt r.

End np.

(** ** shapely *)

Module shapely.

Inductive Location : Type := Interior | Boundary | Exterior.

(** [Point(x, y)] *)
Definition Point : Type := (R * R)%type.

(** A geometry, given by the location of every point of the plane
    relative to it. *)
Record Geometry : Type := mkGeometry { locate : Point -> Location }.

Definition in_interior (g : Geometry) (p : Point) : bool :=
  match locate g p with Interior => true | _ => false end.

Definition in_exterior (g : Geometry) (p : Point) : bool :=
  match locate g p with Exterior => true | _ => false end.

(** [g.contains(Point(x, y))]: no point of the argument lies in the
    exterior of [g] and at least one point of the interior of the
    argument lies in the interior of [g].  The interior of a point is
    the point itself. *)
Definition contains (g : Geometry) (p : Point) : bool :=
  negb (in_exterior g p) && in_interior g p.

(** [g.is_empty]: the geometry has no point at all. *)
Definition is_empty (g : Geometry) : Prop :=
  forall p, locate g p = Exterior.

(** The empty geometry, [GeometryCollection()]. *)
Definition empty : Geometry := mkGeometry (fun _ => Exterior).

(** [box(minx, miny, maxx, maxy)]: the closed axis-parallel rectangle. *)
Definition box (minx miny maxx maxy : R) : Geometry :=
  mkGeometry (fun p =>
    let (x, y) := p in
    if Rltb minx x && Rltb x maxx && Rltb miny y && Rltb y maxy
    then Interior
    else if Rleb minx x && Rleb x maxx && Rleb miny y && Rleb y maxy
    then Boundary
    else Exterior).

End shapely.

Import shapely.

(** ** Geographic data

    What [load_geographic_data] returns: the country polygon, the
    excluded region (union of the exclusion layers clipped to the
    country) and the coordinates of the sensitive sites.  The fourth
    component, the buffer distance, is the constant of line 63. *)

Record GeographicData : Type := mkGeographicData {
  sri_lanka_polygon : Geometry;
  exclusion_clipped : Geometry;
  sensitive_coords : list (R * R)
}.

Definition buffer_distance : R := 0.0001.

(** ** Zone input and the data frame *)

(** One entry of [zone_data] (line 90). *)
Record Zone : Type := mkZone {
  Zone_Name : string;
  zone_Longitude : R;
  zone_Latitude : R;
  Waste_Quantity : R
}.

(** One row of [df] after line 125, which adds the column [Q]. *)
Record Row : Type := mkRow {
  row_Zone_Name : string;
  Longitude : R;
  Latitude : R;
  row_Waste_Quantity : R;
  Q : R
}.

Definition DataFrame : Type := list Row.

(** Lines 103 and 125: [df = pd.DataFrame(zone_data)] followed by
    [df['Q'] = df['Waste Quantity'] / 1000]. *)
Definition make_df (zone_data : list Zone) : DataFrame :=
  map (fun z => mkRow (Zone_Name z) (zone_Longitude z) (zone_Latitude z)
                      (Waste_Quantity z) (Waste_Quantity z / 1000))
      zone_data.

Module Series.

Definition sum (s : list R) : R := fold_left Rplus s 0.

(** [Series.mean()], the exact mean.  pandas divides the binary64 sum
    by the count, which can differ from it in the last place. *)
Definition mean (s : list R) : R := sum s / INR (List.length s).

(** [Series.min()] and [Series.max()]; the empty series (NaN in
    pandas) does not reach the optimiser, see [optimization_logic]. *)
Definition min (s : list R) : R :=
  match s with
  | [] => 0
  | h :: t => fold_left Rmin t h
  end.

Definition max (s : list R) : R :=
  match s with
  | [] => 0
  | h :: t => fold_left Rmax t h
  end.

End Series.

(** ** Helper functions (lines 106-120) *)

Section Feasibility.

Variable geo : GeographicData.

Definition inside_sri_lanka (x y : R) : bool :=
  contains (sri_lanka_polygon geo) (x, y).

Definition outside_exclusion (x y : R) : bool :=
  negb (contains (exclusion_clipped geo) (x, y)).

(** The loop of lines 113-116 over the remaining sensitive sites. *)
Fixpoint respect_buffer_loop (coords : list (R * R)) (x y : R) : bool :=
  match coords with
  | [] => true
  | (xf, yf) :: rest =>
      if Rltb (np.sqrt ((x - xf) ^ 2 + (y - yf) ^ 2)) buffer_distance
      then false
      else respect_buffer_loop rest x y
  end.

Definition respect_buffer (x y : R) : bool :=
  respect_buffer_loop (sensitive_coords geo) x y.

Definition is_feasible (xy : R * R) : bool :=
  let (x, y) := xy in
  inside_sri_lanka x y && outside_exclusion x y && respect_buffer x y.

(** ** Objective function (lines 123-137) *)

Definition vehicle_capacity : R := 5 / 1000.
Definition cost_per_km : R := 20 / 1000.

(** One iteration of the loop of lines 132-136, in exact arithmetic;
    [f64.objective_step] is the same iteration on binary64. *)
Definition objective_step (x y : R) (total_cost : R) (row : Row) : R :=
  let xi := Longitude row in
  let yi := Latitude row in
  let Qi := Q row in
  let ni := np.ceil (Qi / vehicle_capacity) in
  let ti := np.sqrt ((xi - x) ^ 2 + (yi - y) ^ 2) in
  total_cost + cost_per_km * ni * ti.

Definition objective (df : DataFrame) (xy : R * R) : R :=
  let (x, y) := xy in
  if negb (is_feasible xy) then 1e9
  else fold_left (objective_step x y) df 0.

End Feasibility.

(** ** scipy.optimize *)

Module scipy.

Record OptimizeResult : Type := mkOptimizeResult {
  res_x : R * R;
  success : bool
}.

Definition Bounds : Type := ((R * R) * (R * R))%type.

(** The numeric kernel of L-BFGS-B: objective, start, bounds. *)
Definition Solver : Type :=
  (R * R -> R) -> R * R -> Bounds -> OptimizeResult.

(** [minimize(fun, x0, method="L-BFGS-B", bounds=bounds)].  When the
    bounds fix every variable (lower = upper), scipy does not call
    the method: it returns the lower bounds with [success = True]
    ("All independent variables were fixed by bounds.").  Otherwise
    the result is the one of the L-BFGS-B kernel. *)
Definition minimize (lbfgsb : Solver) (f : R * R -> R) (x0 : R * R)
    (bounds : Bounds) : OptimizeResult :=
  let '((lx, ux), (ly, uy)) := bounds in
  if Reqb lx ux && Reqb ly uy
  then mkOptimizeResult (lx, ly) true
  else lbfgsb f x0 bounds.

End scipy.

(** ** Optimization (lines 98-150) *)

(** What the run leaves behind: nothing when the block is skipped,
    the entry stored under ["result"] in the session state, or the
    error message of line 150. *)
Inductive Outcome : Type :=
| NotRun
| Stored (opt_x opt_y : R) (zones : DataFrame)
| OptimizationFailed.

Section Optimization.

Variable lbfgsb : scipy.Solver.
Variable geo : GeographicData.

Definition x0 (df : DataFrame) : R * R :=
  (Series.mean (map Longitude df), Series.mean (map Latitude df)).

Definition bounds (df : DataFrame) : scipy.Bounds :=
  ((Series.min (map Longitude df), Series.max (map Longitude df)),
   (Series.min (map Latitude df), Series.max (map Latitude df))).

Definition optimization_logic (zone_data : list Zone) : Outcome :=
  match zone_data with
  | [] => NotRun
  | _ :: _ =>
      let df := make_df zone_data in
      let result :=
        scipy.minimize lbfgsb (objective geo df) (x0 df) (bounds df) in
      if scipy.success result
      then let (opt_x, opt_y) := scipy.res_x result in Stored opt_x opt_y df
      else OptimizationFailed
  end.

End Optimization.

(** ** The cost model in the words of the specification *)

Module Spec.

Definition scale : R := 1000.
Definition vehicleCapacity : R := 5 / 1000.
Definition costPerUnitDistance : R := 20 / 1000.

Definition location (s : Zone) : R * R :=
  (zone_Longitude s, zone_Latitude s).

(** Euclidean distance between two coordinates. *)
Definition distance (a b : R * R) : R :=
  R_sqrt.sqrt ((fst a - fst b) ^ 2 + (snd a - snd b) ^ 2).

(** [n] is the ceiling of [r]: the least integer not below [r]. *)
Definition is_ceiling (r : R) (n : Z) : Prop :=
  r <= IZR n /\ forall m : Z, r <= IZR m -> (n <= m)%Z.

Definition Qi (s : Zone) : R := Waste_Quantity s / scale.

Definition site_cost (trips : Zone -> Z) (p : R * R) (s : Zone) : R :=
  costPerUnitDistance * IZR (trips s) * distance (location s) p.

Definition total_cost (trips : Zone -> Z) (p : R * R)
    (sites : list Zone) : R :=
  fold_right (fun s acc => site_cost trips p s + acc) 0 sites.

End Spec.

(** ** Sample data

    A rectangular country with a rectangular excluded region inside it
    and one sensitive site. *)

Definition sample_geo : GeographicData :=
  mkGeographicData (box 79 5 82 10) (box 80 7 81 8) [(80.5, 6)].

(** The same country with no excluded region and no sensitive site. *)
Definition open_geo : GeographicData :=
  mkGeographicData (box 79 5 82 10) empty [].

Definition colombo : Zone := mkZone "Zone 1" 80 6.9 2000.
Definition blocked_zone : Zone := mkZone "Zone 1" 80.5 7.5 2000.

(** A kernel that always reports failure. *)
Definition failing_solver : scipy.Solver :=
  fun _ x0 _ => scipy.mkOptimizeResult x0 false.

(** The points of the search box. *)
Definition in_bounds (b : scipy.Bounds) (p : R * R) : Prop :=
  fst (fst b) <= fst p <= snd (fst b) /\ fst (snd b) <= snd p <= snd (snd b).

(** ** folium *)

Module folium.

(** [folium.Icon(color=..., icon=..., prefix=...)] *)
Record Icon : Type := mkIcon {
  icon_color : string;
  icon_name : string;
  icon_prefix : string
}.

(** [folium.Marker(location=[lat, lon], popup=..., icon=...)] *)
Record Marker : Type := mkMarker {
  marker_location : R * R;
  marker_popup : string;
  marker_icon : Icon
}.

(** [folium.Map(location=..., zoom_start=..., control_scale=...)] with
    the markers added to it so far, oldest first. *)
Record Map : Type := mkMap {
  map_location : R * R;
  zoom_start : Z;
  control_scale : bool;
  children : list Marker
}.

(** [marker.add_to(m)] *)
Definition add_to (mk : Marker) (m : Map) : Map :=
  mkMap (map_location m) (zoom_start m) (control_scale m) (children m ++ [mk]).

End folium.

(** ** Session state and output section (lines 98-101, 145-150, 155-200) *)

(** The dictionary stored under ["result"] (line 147). *)
Record StoredResult : Type := mkStoredResult {
  result_x : R;
  result_y : R;
  result_zones : DataFrame
}.

(** The two entries of [st.session_state] the script reads and writes,
    ["result"] and ["map"]; [None] stands for an absent key. *)
Record SessionState : Type := mkSessionState {
  session_result : option StoredResult;
  session_map : option folium.Map
}.

Definition empty_session : SessionState := mkSessionState None None.

(** One execution of the script: the state of the button and the
    contents of the input form. *)
Record Interaction : Type := mkInteraction {
  run_opt : bool;
  zone_data : list Zone
}.

Section Script.

(** [str] of a float, as used by the f-string of line 185. *)
Variable float_str : R -> string.
Variable lbfgsb : scipy.Solver.
Variable geo : GeographicData.

(** Lines 183-187. *)
Definition zone_marker (row : Row) : folium.Marker :=
  folium.mkMarker
    (Latitude row, Longitude row)
    (row_Zone_Name row ++ "<br>Waste: "
       ++ float_str (row_Waste_Quantity row) ++ " tons/day")%string
    (folium.mkIcon "blue" "industry" "fa").

(** Lines 190-194. *)
Definition hub_marker (opt_x opt_y : R) : folium.Marker :=
  folium.mkMarker (opt_y, opt_x) "Optimal Waste Processing Hub"
    (folium.mkIcon "red" "star" "fa").

(** Lines 178-194: the map built from a stored result. *)
Definition build_map (res : StoredResult) : folium.Map :=
  let opt_x := result_x res in
  let opt_y := result_y res in
  let df := result_zones res in
  let avg_lat := Series.mean (map Latitude df) in
  let avg_lon := Series.mean (map Longitude df) in
  let m := folium.mkMap (avg_lat, avg_lon) 7 true [] in
  let m := fold_left (fun m row => folium.add_to (zone_marker row) m) df m in
  folium.add_to (hub_marker opt_x opt_y) m.

(** Lines 98-150 on the session state: both keys are popped, then the
    result is stored when the minimiser reports success. *)
Definition optimization_block (i : Interaction) (st : SessionState)
    : SessionState :=
  if run_opt i then
    match optimization_logic lbfgsb geo (zone_data i) with
    | NotRun => st
    | Stored opt_x opt_y df =>
        mkSessionState (Some (mkStoredResult opt_x opt_y df)) None
    | OptimizationFailed => mkSessionState None None
    end
  else st.

(** Lines 158-196 on the session state: the map is built only when a
    result is present and no map is cached. *)
Definition output_section (st : SessionState) : SessionState :=
  match session_result st with
  | None => st
  | Some res =>
      match session_map st with
      | Some _ => st
      | None => mkSessionState (session_result st) (Some (build_map res))
      end
  end.

(** The map handed to [st_folium] at line 200, if any. *)
Definition displayed_map (st : SessionState) : option folium.Map :=
  match session_result st with
  | None => None
  | Some _ => session_map st
  end.

(** The cached map, when there is one, is the map of the stored result,
    and a stored result always comes with its map. *)
Definition map_matches_result (st : SessionState) : Prop :=
  session_map st = option_map build_map (session_result st).

(** One run of the whole script. *)
Definition script (i : Interaction) (st : SessionState) : SessionState :=
  output_section (optimization_block i st).

(** A browser session: the script is run once per interaction,
    starting from an empty session state. *)
Definition session (interactions : list Interaction) : SessionState :=
  fold_left (fun st i => script i st) interactions empty_session.

End Script.

(** ** More sample data *)

(** A kernel that returns the lower corner of the box. *)
Definition corner_solver : scipy.Solver :=
  fun _ _ b => scipy.mkOptimizeResult (fst (fst b), fst (snd b)) true.

(** The contract of a bounded minimiser: on a non-empty box the point
    returned lies in the box. *)
Definition respects_bounds (lbfgsb : scipy.Solver) : Prop :=
  forall f x0 b,
    fst (fst b) <= snd (fst b) -> fst (snd b) <= snd (snd b) ->
    in_bounds b (scipy.res_x (lbfgsb f x0 b)).

Definition kandy : Zone := mkZone "Zone 2" 80.6 7.3 1000.
Definition idle_zone : Zone := mkZone "Zone 3" 81 8 0.

Definition galle : Zone := mkZone "Zone 4" 80.2 6.9 2000.

(** A float formatter for the sample runs. *)
Definition plain_str : R -> string := fun _ => "?"%string.

Definition press (zones : list Zone) : Interaction := mkInteraction true zones.
Definition idle (zones : list Zone) : Interaction := mkInteraction false zones.

(** A session state left behind by an earlier run. *)
Definition earlier_session : SessionState :=
  let res := mkStoredResult 80 6.9 (make_df [colombo]) in
  mkSessionState (Some res) (Some (build_map plain_str res)).

(** ** Auxiliary notions for the cost of a list of zones *)

(** The sum of [f] over the zones. *)
Definition sum_over (f : Zone -> R) (zones : list Zone) : R :=
  fold_right (fun z acc => f z + acc) 0 zones.

(** What one zone adds to [total_cost] at the point [p] (line 136). *)
Definition site_term (p : R * R) (z : Zone) : R :=
  cost_per_km * np.ceil (Waste_Quantity z / 1000 / vehicle_capacity)
  * Spec.distance (Spec.location z) p.


(** ** The arithmetic on binary64 floats

    The definitions above read the arithmetic of lines 112-137 over the
    real numbers.  The module below reads the same lines over IEEE 754
    binary64, the arithmetic Python and numpy carry out, so that the
    code can be evaluated bit for bit on concrete inputs.  The two
    readings part where rounding matters: the quotient
    [Qi / vehicle_capacity] of line 134 and the overflow of the squares
    of line 135. *)

Module f64.

(** The real number a finite float denotes (0 for infinities and NaN,
    which no coordinate handed to shapely takes). *)
Definition to_R (x : float) : R :=
  match Prim2SF x with
  | S754_finite s m e => IZR (if s then Z.neg m else Z.pos m) * powerRZ 2 e
  | _ => 0
  end.

(** [x ** 2] on numpy floats. *)
Definition square (x : float) : float := (x * x)%float.

Definition two52 : float := 4503599627370496%float.

(** [np.ceil]: below 2^52 in magnitude, adding and subtracting 2^52
    rounds to the nearest integer, which is then corrected upwards;
    from 2^52 on every float is an integer.  Zeros, infinities and NaN
    are returned as they are. *)
Definition ceil (x : float) : float :=
  (if x =? 0 then x
   else if 0 <? x then
     (if x <? two52
      then let r := (x + two52) - two52 in if r <? x then r + 1 else r
      else x)
   else if x <? 0 then
     (let y := - x in
      if y <? two52
      then let r := (y + two52) - two52 in - (if y <? r then r - 1 else r)
      else x)
   else x)%float.

Record GeographicData : Type := mkGeographicData {
  sri_lanka_polygon : Geometry;
  exclusion_clipped : Geometry;
  sensitive_coords : list (float * float)
}.

Definition buffer_distance : float := 0.0001%float.

Record Zone : Type := mkZone {
  Zone_Name : string;
  zone_Longitude : float;
  zone_Latitude : float;
  Waste_Quantity : float
}.

Record Row : Type := mkRow {
  row_Zone_Name : string;
  Longitude : float;
  Latitude : float;
  row_Waste_Quantity : float;
  Q : float
}.

Definition DataFrame : Type := list Row.

(** Lines 103 and 125. *)
Definition make_df (zone_data : list Zone) : DataFrame :=
  map (fun z => mkRow (Zone_Name z) (zone_Longitude z) (zone_Latitude z)
                      (Waste_Quantity z) (Waste_Quantity z / 1000)%float)
      zone_data.

Section Feasibility.

Variable geo : GeographicData.

Definition inside_sri_lanka (x y : float) : bool :=
  contains (sri_lanka_polygon geo) (to_R x, to_R y).

Definition outside_exclusion (x y : float) : bool :=
  negb (contains (exclusion_clipped geo) (to_R x, to_R y)).

Fixpoint respect_buffer_loop (coords : list (float * float)) (x y : float)
    : bool :=
  match coords with
  | [] => true
  | (xf, yf) :: rest =>
      if (PrimFloat.sqrt (square (x - xf) + square (y - yf))
          <? buffer_distance)%float
      then false
      else respect_buffer_loop rest x y
  end.

Definition respect_buffer (x y : float) : bool :=
  respect_buffer_loop (sensitive_coords geo) x y.

Definition is_feasible (xy : float * float) : bool :=
  let (x, y) := xy in
  inside_sri_lanka x y && outside_exclusion x y && respect_buffer x y.

Definition vehicle_capacity : float := (5 / 1000)%float.
Definition cost_per_km : float := (20 / 1000)%float.

(** The number of trips of line 134. *)
Definition trips (row : Row) : float := ceil (Q row / vehicle_capacity)%float.

(** One iteration of the loop of lines 132-136. *)
Definition objective_step (x y : float) (total_cost : float) (row : Row)
    : float :=
  let xi := Longitude row in
  let yi := Latitude row in
  let ni := trips row in
  let ti := PrimFloat.sqrt (square (xi - x) + square (yi - y))%float in
  (total_cost + cost_per_km * ni * ti)%float.

Definition objective (df : DataFrame) (xy : float * float) : float :=
  let (x, y) := xy in
  if negb (is_feasible xy) then 1e9%float
  else fold_left (objective_step x y) df 0%float.

End Feasibility.

End f64.

(** ** Sample data in binary64 *)

(** The country of [open_geo], with no excluded region and no
    sensitive site. *)
Definition open_geo_f64 : f64.GeographicData :=
  f64.mkGeographicData (box 79 5 82 10) empty [].

(** A zone producing 35 tons a day, seven full 5-ton loads. *)
Definition zone_35_tons : Zone := mkZone "Zone 1" 80 6.5 35.
Definition zone_35_tons_f64 : f64.Zone :=
  f64.mkZone "Zone 1" 80%float 6.5%float 35%float.


(** ** Tactics *)

(** Decides the comparisons of a goal between numerals. *)
Ltac decide_cmp :=
  unfold Rltb, Rleb, Reqb;
  repeat match goal with
  | |- context [Rlt_dec ?a ?b] => destruct (Rlt_dec a b); try lra
  | |- context [Rle_dec ?a ?b] => destruct (Rle_dec a b); try lra
  | |- context [Req_dec_T ?a ?b] => destruct (Req_dec_T a b); try lra
  end;
  simpl; try reflexivity.

(** Locates a point of the sample data relative to a box. *)
Ltac locate_box :=
  unfold sample_geo, open_geo; cbn [locate box sri_lanka_polygon exclusion_clipped];
  decide_cmp; try discriminate.

(** * Properties *)

(** ** Comparisons *)

Lemma Rltb_true (a b : R) : Rltb a b = true <-> a < b.
Proof. unfold Rltb. destruct (Rlt_dec a b); split; intros; auto; discriminate. Qed.

Lemma Rltb_false (a b : R) : Rltb a b = false <-> b <= a.
Proof.
  unfold Rltb. destruct (Rlt_dec a b); split; intros; auto; try discriminate; lra.
Qed.

Lemma Rleb_true (a b : R) : Rleb a b = true <-> a <= b.
Proof. unfold Rleb. destruct (Rle_dec a b); split; intros; auto; discriminate. Qed.

Lemma Rleb_false (a b : R) : Rleb a b = false <-> b < a.
Proof.
  unfold Rleb. destruct (Rle_dec a b); split; intros; auto; try discriminate; lra.
Qed.

Lemma Reqb_refl (a : R) : Reqb a a = true.
Proof. unfold Reqb. destruct (Req_dec_T a a); congruence. Qed.

(** ** [np.ceil] *)

Lemma ceil_bounds (r : R) : r <= np.ceil r < r + 1.
Proof.
  unfold np.ceil. rewrite opp_IZR.
  destruct (base_Int_part (- r)) as [Hle Hgt]. lra.
Qed.

Lemma ceil_least (r : R) (m : Z) : r <= IZR m -> np.ceil r <= IZR m.
Proof.
  intros Hm. pose proof (ceil_bounds r) as [_ Hlt].
  unfold np.ceil in *. apply IZR_le.
  assert (H : IZR (- Int_part (- r)) < IZR (m + 1)) by (rewrite plus_IZR; lra).
  apply lt_IZR in H. lia.
Qed.

Lemma ceil_is_ceiling (r : R) : Spec.is_ceiling r (- Int_part (- r)).
Proof.
  split.
  - apply (ceil_bounds r).
  - intros m Hm. apply le_IZR. now apply ceil_least.
Qed.

Lemma is_ceiling_ceil (r : R) (n : Z) : Spec.is_ceiling r n -> np.ceil r = IZR n.
Proof.
  intros [Hn Hleast].
  assert (Hc : (- Int_part (- r) <= n)%Z) by (apply le_IZR; now apply ceil_least).
  assert (Hn' : (n <= - Int_part (- r))%Z) by (apply Hleast; apply (ceil_bounds r)).
  unfold np.ceil. f_equal. lia.
Qed.

Lemma ceil_nonneg (r : R) : 0 <= r -> 0 <= np.ceil r.
Proof. intros Hr. pose proof (ceil_bounds r). lra. Qed.

Lemma is_ceiling_IZR (n : Z) : Spec.is_ceiling (IZR n) n.
Proof. split; [lra | intros m Hm; now apply le_IZR]. Qed.

(** ** The accumulation loop of [objective] *)

Lemma fold_objective_step (x y : R) (df : DataFrame) (a : R) :
  fold_left (objective_step x y) df a
  = a + fold_right (fun row acc => objective_step x y 0 row + acc) 0 df.
Proof.
  revert a. induction df as [| row df IH]; intros a; simpl.
  - lra.
  - rewrite IH. unfold objective_step. lra.
Qed.

Lemma objective_feasible (geo : GeographicData) (df : DataFrame) (p : R * R) :
  is_feasible geo p = true ->
  objective geo df p = fold_left (objective_step (fst p) (snd p)) df 0.
Proof.
  intros Hf. destruct p as [x y]. unfold objective. now rewrite Hf.
Qed.

Lemma objective_infeasible (geo : GeographicData) (df : DataFrame) (p : R * R) :
  is_feasible geo p = false -> objective geo df p = 1e9.
Proof.
  intros Hf. destruct p as [x y]. unfold objective. now rewrite Hf.
Qed.

(** ** The three checks *)

Lemma contains_true_iff (g : Geometry) (p : Point) :
  contains g p = true <-> locate g p = Interior.
Proof.
  unfold contains, in_exterior, in_interior.
  destruct (locate g p); simpl; split; intros H; congruence.
Qed.

Lemma contains_false_iff (g : Geometry) (p : Point) :
  contains g p = false <-> locate g p <> Interior.
Proof.
  rewrite <- contains_true_iff. destruct (contains g p); split; congruence.
Qed.

Lemma respect_buffer_loop_true_iff (coords : list (R * R)) (x y : R) :
  respect_buffer_loop coords x y = true <->
  Forall (fun f => buffer_distance <= Spec.distance (x, y) f) coords.
Proof.
  induction coords as [| [xf yf] rest IH]; simpl.
  - split; auto.
  - destruct (Rltb _ buffer_distance) eqn:E.
    + apply Rltb_true in E. split; [discriminate |].
      intros H. apply Forall_inv in H.
      unfold Spec.distance in H; simpl in H.
      unfold np.sqrt in E; simpl in E. lra.
    + apply Rltb_false in E. rewrite IH. split.
      * intros H. apply Forall_cons; [| exact H].
        unfold Spec.distance; simpl.
        unfold np.sqrt in E; simpl in E. exact E.
      * apply Forall_inv_tail.
Qed.

Lemma is_feasible_true_iff (geo : GeographicData) (p : R * R) :
  is_feasible geo p = true <->
  locate (sri_lanka_polygon geo) p = Interior /\
  locate (exclusion_clipped geo) p <> Interior /\
  Forall (fun f => buffer_distance <= Spec.distance p f) (sensitive_coords geo).
Proof.
  destruct p as [x y].
  unfold is_feasible, inside_sri_lanka, outside_exclusion, respect_buffer.
  rewrite !andb_true_iff, negb_true_iff, contains_true_iff,
    contains_false_iff, respect_buffer_loop_true_iff.
  tauto.
Qed.

(** ** Evaluation on the sample data *)

Lemma distance_horizontal (a b y : R) : b <= a -> Spec.distance (a, y) (b, y) = a - b.
Proof.
  intros Hab. unfold Spec.distance; simpl fst; simpl snd.
  apply sqrt_lem_1; [nra | lra | ring].
Qed.

Lemma distance_horizontal' (a b y : R) : a <= b -> Spec.distance (a, y) (b, y) = b - a.
Proof.
  intros Hab. unfold Spec.distance; simpl fst; simpl snd.
  apply sqrt_lem_1; [nra | lra | ring].
Qed.

Lemma sample_feasible : is_feasible sample_geo (79.5, 6) = true.
Proof.
  apply is_feasible_true_iff. repeat split.
  - locate_box.
  - locate_box.
  - apply Forall_cons; [| apply Forall_nil].
    rewrite distance_horizontal' by lra. unfold buffer_distance. lra.
Qed.

Lemma open_feasible (x y : R) :
  79 < x < 82 -> 5 < y < 10 -> is_feasible open_geo (x, y) = true.
Proof.
  intros Hx Hy. apply is_feasible_true_iff. repeat split.
  - locate_box.
  - discriminate.
  - constructor.
Qed.

(** In exact arithmetic the loop of [objective] adds up
    costPerUnitDistance * ni * ti over the sites, with Qi the daily
    waste divided by 1000, ni the ceiling of Qi / vehicleCapacity and ti
    the Euclidean distance from the site to the coordinate.  On
    binary64 the quotient is rounded before the ceiling is taken; the
    last part of the file evaluates that. *)
Theorem objective_is_sum_of_site_costs :
  forall (geo : GeographicData) (zone_data : list Zone) (p : R * R)
         (trips : Zone -> Z),
    is_feasible geo p = true ->
    (forall s, In s zone_data ->
       Spec.is_ceiling (Spec.Qi s / Spec.vehicleCapacity) (trips s)) ->
    objective geo (make_df zone_data) p = Spec.total_cost trips p zone_data.
Proof.
  intros geo zone_data p trips Hf Htrips.
  rewrite (objective_feasible _ _ _ Hf), fold_objective_step, Rplus_0_l.
  induction zone_data as [| s sites IH]; simpl; [reflexivity |].
  rewrite IH by (intros s' Hs'; apply Htrips; now right).
  f_equal.
  unfold objective_step, Spec.site_cost, Spec.distance, Spec.location; simpl.
  rewrite (is_ceiling_ceil _ (trips s)).
  - unfold cost_per_km, Spec.costPerUnitDistance, np.sqrt. lra.
  - apply (Htrips s). now left.
Qed.

Lemma objective_is_sum_of_site_costs_witness :
  objective sample_geo (make_df [colombo]) (79.5, 6)
  = Spec.total_cost (fun _ => 400%Z) (79.5, 6) [colombo].
Proof.
  apply (objective_is_sum_of_site_costs sample_geo [colombo] (79.5, 6)
           (fun _ => 400%Z)).
  - exact sample_feasible.
  - intros s [<- | []].
    replace (Spec.Qi colombo / Spec.vehicleCapacity) with (IZR 400)
      by (unfold Spec.Qi, Spec.vehicleCapacity, Spec.scale; simpl; lra).
    apply is_ceiling_IZR.
Defined.

(** ** Further facts used below *)

Lemma is_feasible_false_not_interior (geo : GeographicData) (p : R * R) :
  locate (sri_lanka_polygon geo) p <> Interior -> is_feasible geo p = false.
Proof.
  intros Hloc. destruct (is_feasible geo p) eqn:E; [| reflexivity].
  apply is_feasible_true_iff in E. tauto.
Qed.

Lemma is_feasible_false_excluded (geo : GeographicData) (p : R * R) :
  locate (exclusion_clipped geo) p = Interior -> is_feasible geo p = false.
Proof.
  intros Hloc. destruct (is_feasible geo p) eqn:E; [| reflexivity].
  apply is_feasible_true_iff in E. tauto.
Qed.

Lemma distance_sym (a b : R * R) : Spec.distance a b = Spec.distance b a.
Proof. unfold Spec.distance. f_equal. ring. Qed.

Lemma distance_nonneg (a b : R * R) : 0 <= Spec.distance a b.
Proof. apply sqrt_pos. Qed.

Lemma distance_lower_bound (a b : R * R) (r : R) :
  0 <= r ->
  r * r <= (fst a - fst b) ^ 2 + (snd a - snd b) ^ 2 ->
  r <= Spec.distance a b.
Proof.
  intros Hr Hsq. unfold Spec.distance.
  rewrite <- (sqrt_square r Hr). now apply sqrt_le_1_alt.
Qed.



Lemma objective_single (geo : GeographicData) (s : Zone) (p : R * R) :
  is_feasible geo p = true ->
  objective geo (make_df [s]) p
  = cost_per_km * np.ceil (Waste_Quantity s / 1000 / vehicle_capacity)
    * Spec.distance p (Spec.location s).
Proof.
  intros Hf. rewrite (objective_feasible _ _ _ Hf). simpl.
  unfold objective_step; simpl. rewrite distance_sym.
  unfold Spec.distance, Spec.location, np.sqrt; simpl. lra.
Qed.

Lemma sample_outside_country : is_feasible sample_geo (0, 0) = false.
Proof. apply is_feasible_false_not_interior. locate_box. Qed.

(** C2.  At a coordinate that is not feasible the cost function returns
    the finite sentinel 1e9, whatever the sites are. *)
Theorem objective_infeasible_is_sentinel :
  forall (geo : GeographicData) (df : DataFrame) (p : R * R),
    is_feasible geo p = false ->
    objective geo df p = 1e9 /\
    forall df' : DataFrame, objective geo df' p = objective geo df p.
Proof.
  intros geo df p Hf. split.
  - now apply objective_infeasible.
  - intros df'. now rewrite !objective_infeasible.
Qed.

Lemma objective_infeasible_is_sentinel_witness :
  objective sample_geo (make_df [colombo]) (0, 0) = 1e9 /\
  forall df' : DataFrame,
    objective sample_geo df' (0, 0) = objective sample_geo (make_df [colombo]) (0, 0).
Proof.
  apply (objective_infeasible_is_sentinel sample_geo (make_df [colombo]) (0, 0)).
  exact sample_outside_country.
Defined.

(** C3.  [is_feasible] holds exactly when the inside check, the
    exclusion check and the buffer check all pass, that is, exactly
    when the coordinate lies within the allowed region, does not lie
    within the excluded region and keeps the buffer distance to every
    sensitive site; a point strictly outside the allowed region is
    infeasible, and so is a point strictly inside the excluded region,
    wherever it lies in the allowed region. *)
Theorem is_feasible_iff_all_checks :
  forall (geo : GeographicData) (x y : R),
    (is_feasible geo (x, y) = true <->
       inside_sri_lanka geo x y = true /\
       outside_exclusion geo x y = true /\
       respect_buffer geo x y = true) /\
    (is_feasible geo (x, y) = true <->
       locate (sri_lanka_polygon geo) (x, y) = Interior /\
       locate (exclusion_clipped geo) (x, y) <> Interior /\
       forall f, In f (sensitive_coords geo) ->
                 buffer_distance <= Spec.distance (x, y) f) /\
    (locate (sri_lanka_polygon geo) (x, y) = Exterior ->
       is_feasible geo (x, y) = false) /\
    (locate (exclusion_clipped geo) (x, y) = Interior ->
       is_feasible geo (x, y) = false).
Proof.
  intros geo x y. split; [| split; [| split]].
  - unfold is_feasible. rewrite !andb_true_iff. tauto.
  - rewrite is_feasible_true_iff, Forall_forall. tauto.
  - intros Hext. apply is_feasible_false_not_interior. congruence.
  - apply is_feasible_false_excluded.
Qed.

Lemma is_feasible_iff_all_checks_witness :
  is_feasible sample_geo (79.5, 6) = true /\
  is_feasible sample_geo (0, 0) = false /\
  is_feasible sample_geo (80.5, 7.5) = false /\
  is_feasible sample_geo (80.50005, 6) = false.
Proof.
  destruct (is_feasible_iff_all_checks sample_geo 79.5 6) as (_ & Hin & _ & _).
  destruct (is_feasible_iff_all_checks sample_geo 0 0) as (_ & _ & Hout & _).
  destruct (is_feasible_iff_all_checks sample_geo 80.5 7.5) as (_ & _ & _ & Hexc).
  destruct (is_feasible_iff_all_checks sample_geo 80.50005 6) as (_ & Hbuf & _ & _).
  split; [| split; [| split]].
  - apply Hin. split; [locate_box | split; [locate_box |]].
    intros f [<- | []]. rewrite distance_horizontal' by lra.
    unfold buffer_distance. lra.
  - apply Hout. locate_box.
  - apply Hexc. locate_box.
  - apply not_true_is_false. intros E.
    apply Hbuf in E. destruct E as (_ & _ & Hall).
    specialize (Hall (80.5, 6) (or_introl eq_refl)).
    rewrite distance_horizontal in Hall by lra.
    unfold buffer_distance in Hall. lra.
Defined.

(** C4, refuted as stated: a point on the boundary of the sample country
    is rejected by the inside check. *)
Lemma inside_check_rejects_sample_boundary :
  locate (sri_lanka_polygon sample_geo) (79, 6) = Boundary /\
  inside_sri_lanka sample_geo 79 6 = false.
Proof.
  split.
  - locate_box.
  - unfold inside_sri_lanka. apply contains_false_iff. locate_box.
Qed.

(** C4, amended.  The inside check is boundary-exclusive: it accepts
    exactly the points of the interior of the allowed region, and every
    coordinate lying exactly on the boundary of the allowed region is
    rejected. *)
Theorem inside_check_excludes_boundary :
  forall (geo : GeographicData) (x y : R),
    (inside_sri_lanka geo x y = true <->
       locate (sri_lanka_polygon geo) (x, y) = Interior) /\
    (locate (sri_lanka_polygon geo) (x, y) = Boundary ->
       inside_sri_lanka geo x y = false) /\
    (locate (sri_lanka_polygon geo) (x, y) = Exterior ->
       inside_sri_lanka geo x y = false).
Proof.
  intros geo x y. unfold inside_sri_lanka. split; [| split].
  - apply contains_true_iff.
  - intros Hb. apply contains_false_iff. congruence.
  - intros He. apply contains_false_iff. congruence.
Qed.

Lemma inside_check_excludes_boundary_witness :
  inside_sri_lanka sample_geo 79 6 = false /\
  inside_sri_lanka sample_geo 79.5 6 = true /\
  inside_sri_lanka sample_geo 0 0 = false.
Proof.
  destruct (inside_check_excludes_boundary sample_geo 79 6) as (_ & Hb & _).
  destruct (inside_check_excludes_boundary sample_geo 79.5 6) as (Hi & _ & _).
  destruct (inside_check_excludes_boundary sample_geo 0 0) as (_ & _ & He).
  split; [| split].
  - apply Hb. locate_box.
  - apply Hi. locate_box.
  - apply He. locate_box.
Defined.

Lemma respect_buffer_loop_false_iff (coords : list (R * R)) (x y : R) :
  respect_buffer_loop coords x y = false <->
  exists f, In f coords /\ Spec.distance (x, y) f < buffer_distance.
Proof.
  induction coords as [| [xf yf] rest IH]; simpl.
  - split; [discriminate | intros (f & [] & _)].
  - destruct (Rltb _ buffer_distance) eqn:E.
    + apply Rltb_true in E. split; [| reflexivity].
      intros _. exists (xf, yf). split; [now left | exact E].
    + apply Rltb_false in E. rewrite IH. split.
      * intros (f & Hin & Hlt). exists f. split; [now right | exact Hlt].
      * intros (f & [<- | Hin] & Hlt).
        -- unfold Spec.distance in Hlt; simpl in Hlt.
           unfold np.sqrt in E; simpl in E. lra.
        -- now exists f.
Qed.



(** A coordinate slightly closer to the sensitive site of the sample
    data than the buffer distance is rejected. *)
Example buffer_distance_closer_fails :
  respect_buffer sample_geo 80.50005 6 = false.
Proof.
  apply respect_buffer_loop_false_iff. exists (80.5, 6). split; [now left |].
  rewrite distance_horizontal by lra. unfold buffer_distance. lra.
Qed.

(** ** The optimiser *)

Lemma mean_singleton (a : R) : Series.mean [a] = a.
Proof. unfold Series.mean, Series.sum; simpl. field. Qed.

Lemma single_site_outcome (lbfgsb : scipy.Solver) (geo : GeographicData) (z : Zone) :
  optimization_logic lbfgsb geo [z]
  = Stored (zone_Longitude z) (zone_Latitude z) (make_df [z]).
Proof.
  unfold optimization_logic, bounds, scipy.minimize; simpl.
  now rewrite !Reqb_refl.
Qed.

Lemma blocked_box_infeasible (p : R * R) :
  in_bounds (bounds (make_df [blocked_zone])) p ->
  is_feasible sample_geo p = false.
Proof.
  destruct p as [x y]. intros Hbox.
  unfold in_bounds in Hbox; simpl in Hbox. destruct Hbox as [Hx Hy].
  assert (Ex : x = 80.5) by lra. assert (Ey : y = 7.5) by lra.
  rewrite Ex, Ey.
  apply is_feasible_false_excluded. locate_box.
Qed.

(** C6.  With a single site strictly inside the excluded region every
    point of the search box is infeasible and the objective is the
    sentinel there, yet the run does not end in the failure branch of
    line 150: it stores the infeasible point as the optimum, even with
    a numeric kernel that reports failure on every call. *)
Theorem blocked_single_site_is_stored :
  (forall p, in_bounds (bounds (make_df [blocked_zone])) p ->
             is_feasible sample_geo p = false) /\
  objective sample_geo (make_df [blocked_zone]) (80.5, 7.5) = 1e9 /\
  optimization_logic failing_solver sample_geo [blocked_zone]
  = Stored 80.5 7.5 (make_df [blocked_zone]) /\
  optimization_logic failing_solver sample_geo [blocked_zone]
  <> OptimizationFailed.
Proof.
  split; [| split; [| split]].
  - exact blocked_box_infeasible.
  - apply objective_infeasible, is_feasible_false_excluded. locate_box.
  - apply single_site_outcome.
  - rewrite single_site_outcome. discriminate.
Qed.

(** C7.  For a single demand site (daily waste non-negative, as the
    input form guarantees) and two feasible coordinates, the coordinate
    strictly closer to the site costs no more than the other. *)
Theorem objective_monotone_in_distance :
  forall (geo : GeographicData) (s : Zone) (p1 p2 : R * R),
    0 <= Waste_Quantity s ->
    is_feasible geo p1 = true ->
    is_feasible geo p2 = true ->
    Spec.distance p1 (Spec.location s) < Spec.distance p2 (Spec.location s) ->
    objective geo (make_df [s]) p1 <= objective geo (make_df [s]) p2.
Proof.
  intros geo s p1 p2 Hw Hf1 Hf2 Hlt.
  rewrite !objective_single by assumption.
  assert (Hc : 0 <= np.ceil (Waste_Quantity s / 1000 / vehicle_capacity)).
  { apply ceil_nonneg. unfold vehicle_capacity.
    apply Rmult_le_pos; [| lra]. apply Rmult_le_pos; [exact Hw | lra]. }
  unfold cost_per_km.
  apply Rmult_le_compat_l; [| lra].
  apply Rmult_le_pos; [lra | exact Hc].
Qed.

Lemma objective_monotone_in_distance_witness :
  objective open_geo (make_df [colombo]) (80.1, 6.9)
  <= objective open_geo (make_df [colombo]) (80.2, 6.9).
Proof.
  apply (objective_monotone_in_distance open_geo colombo (80.1, 6.9) (80.2, 6.9)).
  - simpl. lra.
  - apply open_feasible; lra.
  - apply open_feasible; lra.
  - unfold Spec.location, colombo; cbn [zone_Longitude zone_Latitude].
    rewrite !distance_horizontal by lra. lra.
Defined.

(** C8.  An empty excluded region lets every coordinate pass the
    exclusion check, and an empty set of sensitive sites lets every
    coordinate pass the buffer check. *)
Theorem empty_constraints_pass :
  forall (geo : GeographicData) (x y : R),
    (is_empty (exclusion_clipped geo) -> outside_exclusion geo x y = true) /\
    (sensitive_coords geo = [] -> respect_buffer geo x y = true).
Proof.
  intros geo x y. split.
  - intros Hempty. unfold outside_exclusion.
    apply negb_true_iff, contains_false_iff.
    rewrite (Hempty (x, y)). discriminate.
  - intros Hnil. unfold respect_buffer. now rewrite Hnil.
Qed.

Lemma empty_constraints_pass_witness :
  outside_exclusion open_geo 80 7 = true /\ respect_buffer open_geo 80 7 = true.
Proof.
  destruct (empty_constraints_pass open_geo 80 7) as [He Hb].
  split; [apply He; intros p; reflexivity | now apply Hb].
Defined.

(** C9.  A coordinate lying exactly on the boundary of the excluded
    region passes the exclusion check, and it is feasible whenever it
    also lies strictly inside the allowed region and keeps the buffer
    distance to every sensitive site. *)
Theorem exclusion_boundary_passes :
  forall (geo : GeographicData) (x y : R),
    locate (exclusion_clipped geo) (x, y) = Boundary ->
    outside_exclusion geo x y = true /\
    (locate (sri_lanka_polygon geo) (x, y) = Interior ->
     (forall f, In f (sensitive_coords geo) ->
                buffer_distance <= Spec.distance (x, y) f) ->
     is_feasible geo (x, y) = true).
Proof.
  intros geo x y Hb. split.
  - unfold outside_exclusion. apply negb_true_iff, contains_false_iff.
    congruence.
  - intros Hin Hbuf. apply is_feasible_true_iff. repeat split.
    + exact Hin.
    + congruence.
    + now apply Forall_forall.
Qed.

Lemma exclusion_boundary_passes_witness :
  outside_exclusion sample_geo 80 7.5 = true /\
  is_feasible sample_geo (80, 7.5) = true.
Proof.
  destruct (exclusion_boundary_passes sample_geo 80 7.5) as [Hout Hfeas].
  - locate_box.
  - split; [exact Hout |]. apply Hfeas.
    + locate_box.
    + intros f [<- | []]. apply distance_lower_bound.
      * unfold buffer_distance. lra.
      * unfold buffer_distance. simpl. lra.
Defined.



(** * Further properties of the code *)

(** ** The cost as a sum over the zones *)



Lemma trips_nonneg (z : Zone) :
  0 <= Waste_Quantity z ->
  0 <= np.ceil (Waste_Quantity z / 1000 / vehicle_capacity).
Proof.
  intros Hw. apply ceil_nonneg. unfold vehicle_capacity.
  apply Rmult_le_pos; [| lra]. apply Rmult_le_pos; [exact Hw | lra].
Qed.

Lemma site_term_nonneg (p : R * R) (z : Zone) :
  0 <= Waste_Quantity z -> 0 <= site_term p z.
Proof.
  intros Hw. unfold site_term, cost_per_km.
  pose proof (trips_nonneg z Hw). pose proof (distance_nonneg (Spec.location z) p).
  apply Rmult_le_pos; [| assumption]. apply Rmult_le_pos; [lra | assumption].
Qed.

Lemma objective_feasible_sum_over (geo : GeographicData) (zones : list Zone)
    (p : R * R) :
  is_feasible geo p = true ->
  objective geo (make_df zones) p = sum_over (site_term p) zones.
Proof.
  intros Hf.
  rewrite (objective_feasible _ _ _ Hf), fold_objective_step, Rplus_0_l.
  induction zones as [| z zones IH]; simpl; [reflexivity |].
  rewrite IH. f_equal.
  unfold objective_step, site_term, Spec.distance, Spec.location, np.sqrt; simpl.
  lra.
Qed.


Lemma sum_over_Forall2_eq (f g : Zone -> R) (l1 l2 : list Zone) :
  Forall2 (fun a b => f a = g b) l1 l2 -> sum_over f l1 = sum_over g l2.
Proof.
  induction 1 as [| a b l1 l2 Hab _ IH]; simpl; [reflexivity | now rewrite Hab, IH].
Qed.

Lemma sum_over_le (f g : Zone -> R) (l : list Zone) :
  (forall z, In z l -> f z <= g z) -> sum_over f l <= sum_over g l.
Proof.
  induction l as [| z l IH]; intros H; simpl; [lra |].
  pose proof (H z (or_introl eq_refl)).
  assert (sum_over f l <= sum_over g l) by (apply IH; intros; apply H; now right).
  lra.
Qed.

Lemma sum_over_nonneg (f : Zone -> R) (l : list Zone) :
  (forall z, In z l -> 0 <= f z) -> 0 <= sum_over f l.
Proof.
  induction l as [| z l IH]; intros H; simpl; [lra |].
  pose proof (H z (or_introl eq_refl)).
  assert (0 <= sum_over f l) by (apply IH; intros; apply H; now right).
  lra.
Qed.


Lemma distance_self (a : R * R) : Spec.distance a a = 0.
Proof.
  unfold Spec.distance.
  replace ((fst a - fst a) ^ 2 + (snd a - snd a) ^ 2) with 0 by ring.
  apply sqrt_0.
Qed.



(** X2.  Tightening the constraints never makes a point feasible: a
    point that is feasible for a smaller allowed region, a larger
    excluded region and more sensitive sites is feasible for the
    original data as well. *)
Theorem more_constraints_fewer_feasible_points :
  forall (geo geo' : GeographicData) (p : R * R),
    (forall q, locate (sri_lanka_polygon geo') q = Interior ->
               locate (sri_lanka_polygon geo) q = Interior) ->
    (forall q, locate (exclusion_clipped geo) q = Interior ->
               locate (exclusion_clipped geo') q = Interior) ->
    incl (sensitive_coords geo) (sensitive_coords geo') ->
    is_feasible geo' p = true ->
    is_feasible geo p = true.
Proof.
  intros geo geo' p Hin Hex Hsens Hf.
  apply is_feasible_true_iff in Hf. destruct Hf as (Ha & He & Hb).
  apply is_feasible_true_iff. repeat split.
  - now apply Hin.
  - intros Hi. apply He. now apply Hex.
  - rewrite Forall_forall in *. intros f Hf. apply Hb. now apply Hsens.
Qed.

Lemma more_constraints_fewer_feasible_points_witness :
  is_feasible open_geo (79.5, 6) = true.
Proof.
  apply (more_constraints_fewer_feasible_points open_geo sample_geo (79.5, 6)).
  - intros q H. exact H.
  - intros q H. discriminate H.
  - intros f [].
  - exact sample_feasible.
Defined.






(** X6.  For a single zone whose own location is feasible, the cost at
    that location is 0 and no coordinate costs less: the zone's
    location is a global minimiser of the objective. *)
Theorem single_zone_location_is_optimal :
  forall (geo : GeographicData) (z : Zone),
    0 <= Waste_Quantity z ->
    is_feasible geo (Spec.location z) = true ->
    objective geo (make_df [z]) (Spec.location z) = 0 /\
    forall p, objective geo (make_df [z]) (Spec.location z)
              <= objective geo (make_df [z]) p.
Proof.
  intros geo z Hw Hf.
  assert (H0 : objective geo (make_df [z]) (Spec.location z) = 0).
  { rewrite (objective_feasible_sum_over _ _ _ Hf). simpl.
    unfold site_term. rewrite distance_self. ring. }
  split; [exact H0 |].
  intros p. rewrite H0. destruct (is_feasible geo p) eqn:Hp.
  - rewrite (objective_feasible_sum_over _ _ _ Hp). simpl.
    pose proof (site_term_nonneg p z Hw). lra.
  - rewrite (objective_infeasible _ _ _ Hp). lra.
Qed.

Lemma single_zone_location_is_optimal_witness :
  objective open_geo (make_df [colombo]) (80, 6.9) = 0 /\
  forall p, objective open_geo (make_df [colombo]) (80, 6.9)
            <= objective open_geo (make_df [colombo]) p.
Proof.
  apply (single_zone_location_is_optimal open_geo colombo).
  - simpl. lra.
  - change (is_feasible open_geo (80, 6.9) = true). apply open_feasible; lra.
Defined.

(** X7.  Rounding the number of trips up costs at most one extra trip
    per zone: at a feasible coordinate the objective lies between the
    unrounded cost 0.004 * waste * distance summed over the zones and
    that sum plus 0.02 * distance per zone. *)
Theorem objective_rounding_bounds :
  forall (geo : GeographicData) (zones : list Zone) (p : R * R),
    is_feasible geo p = true ->
    sum_over (fun z => 0.004 * Waste_Quantity z
                       * Spec.distance (Spec.location z) p) zones
    <= objective geo (make_df zones) p
    <= sum_over (fun z => 0.004 * Waste_Quantity z
                          * Spec.distance (Spec.location z) p
                          + 0.02 * Spec.distance (Spec.location z) p) zones.
Proof.
  intros geo zones p Hf. rewrite (objective_feasible_sum_over _ _ _ Hf).
  split; apply sum_over_le; intros z _; unfold site_term, cost_per_km;
    pose proof (distance_nonneg (Spec.location z) p) as Hd;
    pose proof (ceil_bounds (Waste_Quantity z / 1000 / vehicle_capacity)) as [Hlo Hhi];
    unfold vehicle_capacity in *;
    set (c := np.ceil (Waste_Quantity z / 1000 / (5 / 1000))) in *;
    set (d := Spec.distance (Spec.location z) p) in *;
    replace (Waste_Quantity z / 1000 / (5 / 1000)) with (Waste_Quantity z / 5)
      in * by field; nra.
Qed.

Lemma objective_rounding_bounds_witness :
  sum_over (fun z => 0.004 * Waste_Quantity z
                     * Spec.distance (Spec.location z) (79.5, 6)) [colombo; kandy]
  <= objective sample_geo (make_df [colombo; kandy]) (79.5, 6)
  <= sum_over (fun z => 0.004 * Waste_Quantity z
                        * Spec.distance (Spec.location z) (79.5, 6)
                        + 0.02 * Spec.distance (Spec.location z) (79.5, 6))
       [colombo; kandy].
Proof.
  apply (objective_rounding_bounds sample_geo [colombo; kandy] (79.5, 6)).
  exact sample_feasible.
Defined.

(** ** The search box and the starting point *)

Lemma fold_Rmin_le_init (t : list R) (h : R) : fold_left Rmin t h <= h.
Proof.
  revert h. induction t as [| a t IH]; intros h; simpl; [lra |].
  specialize (IH (Rmin h a)). unfold Rmin in *.
  destruct (Rle_dec h a); lra.
Qed.

Lemma fold_Rmin_le_elem (t : list R) (h a : R) : In a t -> fold_left Rmin t h <= a.
Proof.
  revert h. induction t as [| b t IH]; intros h Hin; simpl; [contradiction |].
  destruct Hin as [-> | Hin].
  - pose proof (fold_Rmin_le_init t (Rmin h a)) as H. unfold Rmin in *.
    destruct (Rle_dec h a); lra.
  - now apply IH.
Qed.

Lemma fold_Rmin_In (t : list R) (h : R) : In (fold_left Rmin t h) (h :: t).
Proof.
  revert h. induction t as [| a t IH]; intros h; simpl; [now left |].
  destruct (IH (Rmin h a)) as [E | Hin].
  - rewrite <- E. unfold Rmin. destruct (Rle_dec h a); auto.
  - auto.
Qed.

Lemma fold_Rmax_ge_init (t : list R) (h : R) : h <= fold_left Rmax t h.
Proof.
  revert h. induction t as [| a t IH]; intros h; simpl; [lra |].
  specialize (IH (Rmax h a)). unfold Rmax in *.
  destruct (Rle_dec h a); lra.
Qed.

Lemma fold_Rmax_ge_elem (t : list R) (h a : R) : In a t -> a <= fold_left Rmax t h.
Proof.
  revert h. induction t as [| b t IH]; intros h Hin; simpl; [contradiction |].
  destruct Hin as [-> | Hin].
  - pose proof (fold_Rmax_ge_init t (Rmax h a)) as H. unfold Rmax in *.
    destruct (Rle_dec h a); lra.
  - now apply IH.
Qed.

Lemma fold_Rmax_In (t : list R) (h : R) : In (fold_left Rmax t h) (h :: t).
Proof.
  revert h. induction t as [| a t IH]; intros h; simpl; [now left |].
  destruct (IH (Rmax h a)) as [E | Hin].
  - rewrite <- E. unfold Rmax. destruct (Rle_dec h a); auto.
  - auto.
Qed.

Lemma Series_min_le (s : list R) (a : R) : In a s -> Series.min s <= a.
Proof.
  destruct s as [| h t]; simpl; [contradiction |].
  intros [<- | Hin]; [apply fold_Rmin_le_init | now apply fold_Rmin_le_elem].
Qed.

Lemma Series_max_ge (s : list R) (a : R) : In a s -> a <= Series.max s.
Proof.
  destruct s as [| h t]; simpl; [contradiction |].
  intros [<- | Hin]; [apply fold_Rmax_ge_init | now apply fold_Rmax_ge_elem].
Qed.

Lemma Series_min_In (s : list R) : s <> [] -> In (Series.min s) s.
Proof. destruct s as [| h t]; [congruence | intros _; apply fold_Rmin_In]. Qed.

Lemma Series_max_In (s : list R) : s <> [] -> In (Series.max s) s.
Proof. destruct s as [| h t]; [congruence | intros _; apply fold_Rmax_In]. Qed.

Lemma Longitude_make_df (zones : list Zone) :
  map Longitude (make_df zones) = map zone_Longitude zones.
Proof. unfold make_df. rewrite map_map. reflexivity. Qed.

Lemma Latitude_make_df (zones : list Zone) :
  map Latitude (make_df zones) = map zone_Latitude zones.
Proof. unfold make_df. rewrite map_map. reflexivity. Qed.

Lemma map_nonempty {A B : Type} (f : A -> B) (l : list A) : l <> [] -> map f l <> [].
Proof. destruct l; [congruence | discriminate]. Qed.

Lemma zone_in_bounds (zones : list Zone) (z : Zone) :
  In z zones -> in_bounds (bounds (make_df zones)) (Spec.location z).
Proof.
  intros Hin. unfold in_bounds, bounds. simpl.
  rewrite Longitude_make_df, Latitude_make_df.
  repeat split.
  - apply Series_min_le. now apply in_map.
  - apply Series_max_ge. now apply in_map.
  - apply Series_min_le. now apply in_map.
  - apply Series_max_ge. now apply in_map.
Qed.

(** X8.  The search box is the bounding box of the zones: every zone
    lies in it, and it is contained in every axis-parallel box that
    contains all zones. *)
Theorem bounds_is_bounding_box :
  forall (zones : list Zone),
    zones <> [] ->
    (forall z, In z zones -> in_bounds (bounds (make_df zones)) (Spec.location z)) /\
    (forall b : scipy.Bounds,
       (forall z, In z zones -> in_bounds b (Spec.location z)) ->
       forall p, in_bounds (bounds (make_df zones)) p -> in_bounds b p).
Proof.
  intros zones Hne. split; [intros z; apply zone_in_bounds |].
  intros b Hall p. unfold in_bounds, bounds. simpl.
  rewrite Longitude_make_df, Latitude_make_df.
  pose proof (Series_min_In _ (map_nonempty zone_Longitude _ Hne)) as Hx0.
  pose proof (Series_max_In _ (map_nonempty zone_Longitude _ Hne)) as Hx1.
  pose proof (Series_min_In _ (map_nonempty zone_Latitude _ Hne)) as Hy0.
  pose proof (Series_max_In _ (map_nonempty zone_Latitude _ Hne)) as Hy1.
  apply in_map_iff in Hx0, Hx1, Hy0, Hy1.
  destruct Hx0 as (a & Ea & Ha), Hx1 as (c & Ec & Hc),
           Hy0 as (d & Ed & Hd), Hy1 as (e & Ee & He).
  rewrite <- Ea, <- Ec, <- Ed, <- Ee.
  pose proof (Hall a Ha) as [Ha' _]. pose proof (Hall c Hc) as [Hc' _].
  pose proof (Hall d Hd) as [_ Hd']. pose proof (Hall e He) as [_ He'].
  unfold Spec.location in *. simpl in *. lra.
Qed.

Lemma bounds_is_bounding_box_witness :
  (forall z, In z [colombo; kandy] ->
             in_bounds (bounds (make_df [colombo; kandy])) (Spec.location z)) /\
  (forall b : scipy.Bounds,
     (forall z, In z [colombo; kandy] -> in_bounds b (Spec.location z)) ->
     forall p, in_bounds (bounds (make_df [colombo; kandy])) p -> in_bounds b p).
Proof.
  apply (bounds_is_bounding_box [colombo; kandy]). discriminate.
Defined.

(** ** The call of the minimiser *)

Lemma optimization_logic_nonempty (lbfgsb : scipy.Solver) (geo : GeographicData)
    (zones : list Zone) :
  zones <> [] ->
  optimization_logic lbfgsb geo zones
  = let result :=
      scipy.minimize lbfgsb (objective geo (make_df zones))
        (x0 (make_df zones)) (bounds (make_df zones)) in
    if scipy.success result
    then let (opt_x, opt_y) := scipy.res_x result in
         Stored opt_x opt_y (make_df zones)
    else OptimizationFailed.
Proof. destruct zones; [congruence | reflexivity]. Qed.

Lemma optimization_logic_NotRun (lbfgsb : scipy.Solver) (geo : GeographicData)
    (zones : list Zone) :
  optimization_logic lbfgsb geo zones = NotRun -> zones = [].
Proof.
  destruct zones as [| z rest]; [reflexivity |]. intros H.
  rewrite optimization_logic_nonempty in H by discriminate. cbv zeta in H.
  destruct (scipy.minimize _ _ _ _) as [[rx ry] [|]]; discriminate H.
Qed.

Lemma Reqb_true (a b : R) : Reqb a b = true <-> a = b.
Proof. unfold Reqb. destruct (Req_dec_T a b); split; intros; auto; discriminate. Qed.

Lemma minimize_in_bounds (lbfgsb : scipy.Solver) (f : R * R -> R)
    (start : R * R) (b : scipy.Bounds) :
  respects_bounds lbfgsb ->
  fst (fst b) <= snd (fst b) -> fst (snd b) <= snd (snd b) ->
  in_bounds b (scipy.res_x (scipy.minimize lbfgsb f start b)).
Proof.
  intros Hc Hx Hy. destruct b as [[lx ux] [ly uy]]. unfold scipy.minimize.
  destruct (Reqb lx ux && Reqb ly uy) eqn:E.
  - apply andb_true_iff in E. destruct E as [Ex%Reqb_true Ey%Reqb_true].
    unfold in_bounds; simpl in *. lra.
  - now apply Hc.
Qed.

Lemma Series_constant (s : list R) (a : R) :
  s <> [] -> (forall b, In b s -> b = a) ->
  Series.min s = a /\ Series.max s = a.
Proof.
  intros Hne Hall. split; apply Hall; [now apply Series_min_In | now apply Series_max_In].
Qed.

(** X10.  When all zones share one location the search box collapses to
    that point, and the run stores it as the optimum whatever the
    numeric kernel would answer and whether or not the point is
    feasible. *)
Theorem colocated_zones_outcome :
  forall (lbfgsb : scipy.Solver) (geo : GeographicData) (zones : list Zone)
         (a : R * R),
    zones <> [] ->
    (forall z, In z zones -> Spec.location z = a) ->
    optimization_logic lbfgsb geo zones = Stored (fst a) (snd a) (make_df zones).
Proof.
  intros lbfgsb geo zones [ax ay] Hne Hall.
  rewrite optimization_logic_nonempty by exact Hne.
  unfold bounds, scipy.minimize. rewrite Longitude_make_df, Latitude_make_df.
  destruct (Series_constant (map zone_Longitude zones) ax) as [-> ->].
  { now apply map_nonempty. }
  { intros b (z & <- & Hz)%in_map_iff. now injection (Hall z Hz). }
  destruct (Series_constant (map zone_Latitude zones) ay) as [-> ->].
  { now apply map_nonempty. }
  { intros b (z & <- & Hz)%in_map_iff. now injection (Hall z Hz). }
  now rewrite !Reqb_refl.
Qed.

Lemma colocated_zones_outcome_witness :
  optimization_logic failing_solver sample_geo
    [blocked_zone; mkZone "Zone 2" 80.5 7.5 10]
  = Stored 80.5 7.5 (make_df [blocked_zone; mkZone "Zone 2" 80.5 7.5 10]).
Proof.
  apply (colocated_zones_outcome failing_solver sample_geo
           [blocked_zone; mkZone "Zone 2" 80.5 7.5 10] (80.5, 7.5)).
  - discriminate.
  - intros z [<- | [<- | []]]; reflexivity.
Defined.

Lemma bounds_ordered (zones : list Zone) :
  zones <> [] ->
  fst (fst (bounds (make_df zones))) <= snd (fst (bounds (make_df zones))) /\
  fst (snd (bounds (make_df zones))) <= snd (snd (bounds (make_df zones))).
Proof.
  intros Hne. destruct zones as [| z rest]; [congruence |].
  destruct (zone_in_bounds (z :: rest) z (or_introl eq_refl)) as [Hx Hy].
  lra.
Qed.

(** X11.  With a numeric kernel that keeps to its bounds, a stored
    optimum always lies in the bounding box of the zones, and the zones
    stored with it are the data frame of the run. *)
Theorem stored_optimum_in_bounds :
  forall (lbfgsb : scipy.Solver) (geo : GeographicData) (zones : list Zone)
         (opt_x opt_y : R) (df : DataFrame),
    respects_bounds lbfgsb ->
    optimization_logic lbfgsb geo zones = Stored opt_x opt_y df ->
    in_bounds (bounds (make_df zones)) (opt_x, opt_y) /\ df = make_df zones.
Proof.
  intros lbfgsb geo zones opt_x opt_y df Hc Hrun.
  assert (Hne : zones <> []) by (intros ->; discriminate Hrun).
  rewrite optimization_logic_nonempty in Hrun by exact Hne. cbv zeta in Hrun.
  pose proof (minimize_in_bounds lbfgsb (objective geo (make_df zones))
                (x0 (make_df zones)) (bounds (make_df zones)) Hc) as Hin.
  destruct (scipy.minimize _ _ _ _) as [[rx ry] ok]; simpl in Hrun, Hin.
  destruct ok; [| discriminate Hrun].
  injection Hrun as <- <- <-. split; [| reflexivity].
  destruct (bounds_ordered zones Hne) as [Hx Hy]. now apply Hin.
Qed.

Lemma corner_solver_respects_bounds : respects_bounds corner_solver.
Proof.
  intros f start [[lx ux] [ly uy]] Hx Hy. unfold corner_solver, in_bounds.
  simpl in *. lra.
Qed.

Lemma corner_solver_run :
  optimization_logic corner_solver open_geo [colombo; kandy]
  = Stored 80 6.9 (make_df [colombo; kandy]).
Proof.
  rewrite optimization_logic_nonempty by discriminate.
  unfold bounds, scipy.minimize, corner_solver.
  rewrite Longitude_make_df, Latitude_make_df.
  cbn [map colombo kandy zone_Longitude zone_Latitude Series.min Series.max fold_left].
  assert (E1 : Rmin 80 80.6 = 80) by (unfold Rmin; destruct (Rle_dec 80 80.6); lra).
  assert (E2 : Rmax 80 80.6 = 80.6) by (unfold Rmax; destruct (Rle_dec 80 80.6); lra).
  assert (E3 : Rmin 6.9 7.3 = 6.9) by (unfold Rmin; destruct (Rle_dec 6.9 7.3); lra).
  assert (E4 : Rmax 6.9 7.3 = 7.3) by (unfold Rmax; destruct (Rle_dec 6.9 7.3); lra).
  rewrite E1, E2, E3, E4.
  assert (E5 : Reqb 80 80.6 = false) by decide_cmp.
  rewrite E5. reflexivity.
Qed.

Lemma stored_optimum_in_bounds_witness :
  in_bounds (bounds (make_df [colombo; kandy])) (80, 6.9) /\
  make_df [colombo; kandy] = make_df [colombo; kandy].
Proof.
  apply (stored_optimum_in_bounds corner_solver open_geo [colombo; kandy]
           80 6.9 (make_df [colombo; kandy])).
  - exact corner_solver_respects_bounds.
  - exact corner_solver_run.
Defined.

(** ** Session state and the map *)

Section ScriptFacts.

Variable float_str : R -> string.
Variable lbfgsb : scipy.Solver.
Variable geo : GeographicData.

Lemma fold_add_to_children (df : DataFrame) (m : folium.Map) :
  folium.children
    (fold_left (fun m row => folium.add_to (zone_marker float_str row) m) df m)
  = folium.children m ++ map (zone_marker float_str) df.
Proof.
  revert m. induction df as [| row df IH]; intros m; simpl.
  - now rewrite app_nil_r.
  - rewrite IH. simpl. now rewrite <- app_assoc.
Qed.

Lemma fold_add_to_location (df : DataFrame) (m : folium.Map) :
  folium.map_location
    (fold_left (fun m row => folium.add_to (zone_marker float_str row) m) df m)
  = folium.map_location m.
Proof.
  revert m. induction df as [| row df IH]; intros m; simpl; [reflexivity |].
  now rewrite IH.
Qed.

Lemma script_pressed (i : Interaction) (st : SessionState) :
  run_opt i = true ->
  zone_data i <> [] ->
  script float_str lbfgsb geo i st
  = match optimization_logic lbfgsb geo (zone_data i) with
    | Stored opt_x opt_y df =>
        let res := mkStoredResult opt_x opt_y df in
        mkSessionState (Some res) (Some (build_map float_str res))
    | _ => empty_session
    end.
Proof.
  intros Hrun Hne. unfold script, optimization_block. rewrite Hrun.
  destruct (optimization_logic lbfgsb geo (zone_data i)) eqn:E.
  - now apply optimization_logic_NotRun in E.
  - reflexivity.
  - reflexivity.
Qed.

Lemma script_idle (i : Interaction) (st : SessionState) :
  run_opt i = false ->
  map_matches_result float_str st ->
  script float_str lbfgsb geo i st = st.
Proof.
  intros Hrun Hst. unfold script, optimization_block. rewrite Hrun.
  unfold output_section. unfold map_matches_result in Hst.
  destruct st as [[res |] m]; simpl in *; [| reflexivity].
  now rewrite Hst.
Qed.

Lemma script_keeps_match (i : Interaction) (st : SessionState) :
  map_matches_result float_str st ->
  map_matches_result float_str (script float_str lbfgsb geo i st).
Proof.
  intros Hst. destruct (run_opt i) eqn:Hrun.
  - destruct (zone_data i) as [| z rest] eqn:Hz.
    + unfold script, optimization_block. rewrite Hrun, Hz. simpl.
      unfold output_section. unfold map_matches_result in *.
      destruct st as [[res |] m]; simpl in *; [| exact Hst].
      now rewrite Hst.
    + rewrite script_pressed by (rewrite ?Hz; congruence).
      destruct (optimization_logic lbfgsb geo (zone_data i)); reflexivity.
  - now rewrite script_idle.
Qed.

Lemma run_keeps_match (interactions : list Interaction) (st : SessionState) :
  map_matches_result float_str st ->
  map_matches_result float_str
    (fold_left (fun st i => script float_str lbfgsb geo i st) interactions st).
Proof.
  revert st. induction interactions as [| i rest IH]; intros st Hst; simpl.
  - exact Hst.
  - apply IH. now apply script_keeps_match.
Qed.

End ScriptFacts.

(** X12.  In every session the cached map is the map built from the
    stored result: a result is never shown with the map of an earlier
    run, and no map is kept without a result. *)
Theorem session_map_matches_result :
  forall (float_str : R -> string) (lbfgsb : scipy.Solver)
         (geo : GeographicData) (interactions : list Interaction),
    session_map (session float_str lbfgsb geo interactions)
    = option_map (build_map float_str)
        (session_result (session float_str lbfgsb geo interactions)).
Proof.
  intros float_str lbfgsb geo interactions.
  apply (run_keeps_match float_str lbfgsb geo interactions empty_session).
  reflexivity.
Qed.

(** X13.  Pressing the button supersedes whatever the session held: the
    state after the run is determined by this run alone, holding its
    result and map on success and neither result nor map when the
    minimiser reports failure. *)
Theorem pressed_run_supersedes_state :
  forall (float_str : R -> string) (lbfgsb : scipy.Solver)
         (geo : GeographicData) (i : Interaction) (st : SessionState),
    run_opt i = true ->
    zone_data i <> [] ->
    script float_str lbfgsb geo i st
    = match optimization_logic lbfgsb geo (zone_data i) with
      | Stored opt_x opt_y df =>
          let res := mkStoredResult opt_x opt_y df in
          mkSessionState (Some res) (Some (build_map float_str res))
      | _ => empty_session
      end.
Proof. intros. now apply script_pressed. Qed.

(** X14.  Running the script again without pressing the button, for
    instance after the form was edited or the map was moved, changes
    nothing: the result and the map of the last run stay as they are,
    whatever the form now contains. *)
Theorem idle_rerun_keeps_session :
  forall (float_str : R -> string) (lbfgsb : scipy.Solver)
         (geo : GeographicData) (interactions : list Interaction)
         (i : Interaction),
    run_opt i = false ->
    session float_str lbfgsb geo (interactions ++ [i])
    = session float_str lbfgsb geo interactions.
Proof.
  intros float_str lbfgsb geo interactions i Hidle.
  unfold session. rewrite fold_left_app. simpl.
  apply script_idle; [exact Hidle |].
  apply run_keeps_match. reflexivity.
Qed.

(** X15.  The map of a stored result is centred on the mean of the zone
    coordinates, latitude first, and carries one marker per stored zone
    at (Latitude, Longitude), in the order of the zones, followed by
    the hub marker at (opt_y, opt_x). *)
Theorem build_map_contents :
  forall (float_str : R -> string) (res : StoredResult),
    folium.map_location (build_map float_str res)
    = (snd (x0 (result_zones res)), fst (x0 (result_zones res))) /\
    folium.children (build_map float_str res)
    = map (zone_marker float_str) (result_zones res)
      ++ [hub_marker (result_x res) (result_y res)] /\
    map folium.marker_location (folium.children (build_map float_str res))
    = map (fun row => (Latitude row, Longitude row)) (result_zones res)
      ++ [(result_y res, result_x res)].
Proof.
  intros float_str res.
  assert (Hc : folium.children (build_map float_str res)
               = map (zone_marker float_str) (result_zones res)
                 ++ [hub_marker (result_x res) (result_y res)]).
  { unfold build_map. simpl. now rewrite fold_add_to_children. }
  split; [| split].
  - unfold build_map. simpl. now rewrite fold_add_to_location.
  - exact Hc.
  - rewrite Hc, map_app, map_map. reflexivity.
Qed.

Lemma pressed_run_supersedes_state_witness :
  script plain_str failing_solver sample_geo (press [colombo; kandy]) earlier_session
  = match optimization_logic failing_solver sample_geo [colombo; kandy] with
    | Stored opt_x opt_y df =>
        let res := mkStoredResult opt_x opt_y df in
        mkSessionState (Some res) (Some (build_map plain_str res))
    | _ => empty_session
    end.
Proof.
  apply (pressed_run_supersedes_state plain_str failing_solver sample_geo
           (press [colombo; kandy]) earlier_session).
  - reflexivity.
  - discriminate.
Defined.

Lemma idle_rerun_keeps_session_witness :
  session plain_str corner_solver open_geo [press [colombo; kandy]; idle [galle]]
  = session plain_str corner_solver open_geo [press [colombo; kandy]].
Proof.
  apply (idle_rerun_keeps_session plain_str corner_solver open_geo
           [press [colombo; kandy]] (idle [galle])).
  reflexivity.
Defined.

(** A failed run leaves nothing of the earlier result behind. *)
Example failed_run_clears_earlier_result :
  script plain_str failing_solver sample_geo (press [colombo; kandy]) earlier_session
  = empty_session.
Proof.
  rewrite script_pressed by (reflexivity || discriminate).
  change (zone_data (press [colombo; kandy])) with [colombo; kandy].
  rewrite optimization_logic_nonempty by discriminate.
  unfold bounds, scipy.minimize, failing_solver.
  rewrite Longitude_make_df, Latitude_make_df.
  cbn [map colombo kandy zone_Longitude zone_Latitude Series.min Series.max fold_left].
  assert (E1 : Rmin 80 80.6 = 80) by (unfold Rmin; destruct (Rle_dec 80 80.6); lra).
  assert (E2 : Rmax 80 80.6 = 80.6) by (unfold Rmax; destruct (Rle_dec 80 80.6); lra).
  rewrite E1, E2.
  assert (E5 : Reqb 80 80.6 = false) by decide_cmp.
  rewrite E5. reflexivity.
Qed.

(** ** The sentinel and the feasible costs *)

(** X17.  The sentinel is not an upper bound of the feasible costs: at
    a feasible coordinate away from a zone, a large enough waste
    quantity makes the cost exceed 1e9, so that the objective ranks
    this feasible coordinate behind every infeasible one. *)
Theorem feasible_cost_can_exceed_sentinel :
  forall (geo : GeographicData) (z : Zone) (p q : R * R),
    is_feasible geo p = true ->
    is_feasible geo q = false ->
    0 < Spec.distance (Spec.location z) p ->
    exists w : R,
      0 <= w /\
      let z' := mkZone (Zone_Name z) (zone_Longitude z) (zone_Latitude z) w in
      objective geo (make_df [z']) q < objective geo (make_df [z']) p.
Proof.
  intros geo z p q Hp Hq Hd.
  set (d := Spec.distance (Spec.location z) p) in *.
  exists (1e12 / d).
  assert (Hw : 0 < 1e12 / d) by (apply Rdiv_lt_0_compat; lra).
  split; [lra |]. cbv zeta.
  rewrite (objective_infeasible _ _ _ Hq), (objective_feasible_sum_over _ _ _ Hp).
  simpl. unfold site_term. simpl Waste_Quantity.
  change (Spec.distance (Spec.location _) p) with d.
  pose proof (ceil_bounds (1e12 / d / 1000 / vehicle_capacity)) as [Hlo _].
  set (c := np.ceil (1e12 / d / 1000 / vehicle_capacity)) in *.
  unfold vehicle_capacity, cost_per_km in *.
  assert (Hcd : 2e11 <= c * d).
  { assert (E : 1e12 / d / 1000 / (5 / 1000) * d = 2e11) by (field; lra).
    assert (1e12 / d / 1000 / (5 / 1000) * d <= c * d)
      by (apply Rmult_le_compat_r; lra).
    lra. }
  nra.
Qed.

Lemma feasible_cost_can_exceed_sentinel_witness :
  exists w : R,
    0 <= w /\
    let z' := mkZone (Zone_Name colombo) (zone_Longitude colombo)
                (zone_Latitude colombo) w in
    objective sample_geo (make_df [z']) (0, 0)
    < objective sample_geo (make_df [z']) (79.5, 6.9).
Proof.
  apply (feasible_cost_can_exceed_sentinel sample_geo colombo (79.5, 6.9) (0, 0)).
  - apply is_feasible_true_iff. repeat split.
    + locate_box.
    + locate_box.
    + apply Forall_cons; [| apply Forall_nil]. apply distance_lower_bound.
      * unfold buffer_distance. lra.
      * unfold buffer_distance. simpl. lra.
  - exact sample_outside_country.
  - unfold Spec.location, colombo; cbn [zone_Longitude zone_Latitude].
    rewrite distance_horizontal by lra. lra.
Defined.

(** * The code on binary64 floats *)

Lemma to_R_finite (x : float) (s : bool) (m : positive) (e : Z) :
  Prim2SF x = S754_finite s m e ->
  f64.to_R x = IZR (if s then Z.neg m else Z.pos m) * powerRZ 2 e.
Proof. intros H. unfold f64.to_R. now rewrite H. Qed.

Lemma to_R_81 : f64.to_R 81%float = 81.
Proof.
  rewrite (to_R_finite 81%float false 5699868278390784 (-46))
    by (vm_compute; reflexivity).
  unfold powerRZ. simpl Pos.to_nat. simpl pow. lra.
Qed.

Lemma to_R_6_5 : f64.to_R 6.5%float = 6.5.
Proof.
  rewrite (to_R_finite 6.5%float false 7318349394477056 (-50))
    by (vm_compute; reflexivity).
  unfold powerRZ. simpl Pos.to_nat. simpl pow. lra.
Qed.

Lemma open_f64_feasible : f64.is_feasible open_geo_f64 (81, 6.5)%float = true.
Proof.
  unfold f64.is_feasible, f64.inside_sri_lanka, f64.outside_exclusion,
    f64.respect_buffer, open_geo_f64.
  cbn [f64.sri_lanka_polygon f64.exclusion_clipped f64.sensitive_coords
       f64.respect_buffer_loop].
  rewrite to_R_81, to_R_6_5.
  assert (Hin : contains (box 79 5 82 10) (81, 6.5) = true).
  { apply contains_true_iff. cbn [locate box]. decide_cmp. }
  assert (Hex : contains empty (81, 6.5) = false).
  { apply contains_false_iff. discriminate. }
  now rewrite Hin, Hex.
Qed.

(** [f64.ceil] on the values [np.ceil] is easily got wrong on. *)
Example ceil_f64_samples :
  map f64.ceil [0.5; 1; 2.5; 3.5; 399.99999999999994; 400;
                7.0000000000000009; -0.5; -2.5; 0; infinity]%float
  = [1; 1; 3; 4; 400; 400; 8; -0; -2; 0; infinity]%float.
Proof. vm_compute. reflexivity. Qed.

(** C1.  For a zone producing 35 tons a day the claim counts
    ceiling(0.035 / 0.005) = 7 trips and, one unit of distance away, a
    cost of 20/1000 * 7 * 1 = 0.14.  The code divides binary64 numbers:
    the quotient of line 134 is 7.000000000000001, its ceiling is 8,
    and the cost returned is 0.16. *)
Theorem objective_f64_charges_extra_trip :
  Spec.is_ceiling (Spec.Qi zone_35_tons / Spec.vehicleCapacity) 7 /\
  Spec.total_cost (fun _ => 7%Z) (81, 6.5) [zone_35_tons] = 0.14 /\
  f64.is_feasible open_geo_f64 (81, 6.5)%float = true /\
  (35 / 1000 / f64.vehicle_capacity = 7.0000000000000009)%float /\
  map f64.trips (f64.make_df [zone_35_tons_f64]) = [8%float] /\
  f64.objective open_geo_f64 (f64.make_df [zone_35_tons_f64]) (81, 6.5)%float
  = 0.16%float.
Proof.
  split; [| split; [| split; [| split; [| split]]]].
  - replace (Spec.Qi zone_35_tons / Spec.vehicleCapacity) with (IZR 7)
      by (unfold Spec.Qi, Spec.vehicleCapacity, Spec.scale; simpl; lra).
    apply is_ceiling_IZR.
  - unfold Spec.total_cost, Spec.site_cost, Spec.location, zone_35_tons.
    cbn [fold_right zone_Longitude zone_Latitude].
    rewrite distance_horizontal' by lra.
    unfold Spec.costPerUnitDistance. lra.
  - exact open_f64_feasible.
  - vm_compute. reflexivity.
  - vm_compute. reflexivity.
  - unfold f64.objective. rewrite open_f64_feasible.
    vm_compute. reflexivity.
Qed.

